(** * Adafruit_IO.mqtt_client: the MQTT feed client

    A shallow embedding of [src/Adafruit_IO/mqtt_client.py] and the
    properties of its connection flag, its topic handling and its
    transport calls.

    The paho-mqtt engine and the handlers the user registers are external
    code.  A call into either is recorded, with its arguments, in the
    chronological list of effects a method produces; what the external code
    does in turn is not part of this file.  After its construction
    a client calls the transport or a handler in the last statement of a
    method only, so the client
    a run ends with is the client that call finds, and whatever the
    external code does next shows as a later action of the run. *)

From Stdlib Require Import ZArith Bool List Lia Ascii String QArith.
From Stdlib Require Import DecimalString DecimalZ.
Import ListNotations.

Open Scope string_scope.
Open Scope Z_scope.

(** ** Python string operations used by the client

    A Python [str] is a [string] here, one [ascii] for each character. *)

Module PyStr.

(** [len(s)] *)
Definition len (s : string) : Z := Z.of_nat (String.length s).

(** [s.startswith(p)] *)
Definition startswith (s p : string) : bool := String.prefix p s.

(** An index of a slice, brought into [0 .. n] the way Python does it:
    a negative index counts from the end. *)
Definition clamp (n i : Z) : Z :=
  if i <? 0 then Z.max (i + n) 0 else Z.min i n.

(** [s[start:stop]] *)
Definition slice (s : string) (start stop : Z) : string :=
  let n := len s in
  let lo := clamp n start in
  let hi := clamp n stop in
  String.substring (Z.to_nat lo) (Z.to_nat (hi - lo)) s.

(** [str(z)] for an integer. *)
Definition str_int (z : Z) : string := NilZero.string_of_int (Z.to_int z).

(** [t.format(a)] for a template whose only replacement field is [{0}]
    and an argument already converted to a string. *)
Fixpoint format (t a : string) : string :=
  match t with
  | EmptyString => EmptyString
  | String c r =>
      match r with
      | String c1 (String c2 r') =>
          if (Ascii.eqb c "{" && Ascii.eqb c1 "0" && Ascii.eqb c2 "}")%bool
          then a ++ format r' a
          else String c (format r a)
      | _ => String c (format r a)
      end
  end.

(** [s.endswith(p)]: not called by the client; used to state what the
    documentation says about inbound topics. *)
Definition endswith (s p : string) : bool :=
  let n := String.length s in
  let k := String.length p in
  (Nat.leb k n && String.eqb (String.substring (n - k) k s) p)%bool.

End PyStr.

(** ** Module constants *)

Definition SERVICE_HOST : string := "io.adafruit.com".
Definition SERVICE_PORT : Z := 1883.
Definition KEEP_ALIVE_SEC : Z := 3600.

(** ** The client object, messages and exceptions *)

(** The attributes of an [MQTTClient] besides [_client].  A callback slot
    holds [None] or a handler; [handler] is the type of what the user may
    store there. *)
Record client (handler : Type) : Type := mkClient {
  on_connect : option handler;
  on_disconnect : option handler;
  on_message : option handler;
  _connected : bool
}.
Arguments mkClient {handler} on_connect on_disconnect on_message _connected.
Arguments on_connect {handler} c.
Arguments on_disconnect {handler} c.
Arguments on_message {handler} c.
Arguments _connected {handler} c.

(** The [msg] argument of the message callback. *)
Record message (payload : Type) : Type := mkMessage {
  topic : string;
  msg_payload : payload
}.
Arguments mkMessage {payload} topic msg_payload.
Arguments topic {payload} m.
Arguments msg_payload {payload} m.

(** [RuntimeError(text)], and the [TypeError] the interpreter raises for
    a call that gives the keyword argument [keyword] twice; the wording
    of its message depends on the version of the interpreter. *)
Inductive exn : Type :=
  | RuntimeError (text : string)
  | TypeError (keyword : string).

(** A method ends by returning a value or by raising. *)
Inductive outcome (A : Type) : Type :=
  | Return (a : A)
  | Raise (e : exn).
Arguments Return {A} a.
Arguments Raise {A} e.

(** ** Concrete clients *)

(** A client with a handler for messages only, not connected; handlers are
    told apart by a number. *)
Definition listener : client nat := mkClient None None (Some 7%nat) false.

(** A connected client with all three handlers. *)
Definition online : client nat :=
  mkClient (Some 1%nat) (Some 2%nat) (Some 3%nat) true.

(** Keyword arguments of [connect], as names with integer values. *)
Definition no_kwargs : list (string * Z) := [].

(** ** Effects and the method monad *)

Section Client.

(** The types the client only passes along: a message payload or a
    published value, a handler stored in a callback slot, and the value
    of a keyword argument of [connect]. *)
Context {payload handler kwvalue : Type}.

(** The dictionary [**kwargs]: the keywords with their values, in the
    order the dictionary has them. *)
Definition kwargs : Type := list (string * kwvalue).

(** Calls on [self._client], the paho-mqtt client, with the arguments
    the client has put together for them. *)
Inductive paho_call : Type :=
  | Client_new
  | username_pw_set (key : string)
  | set_on_connect
  | set_on_disconnect
  | set_on_message
  | paho_connect (host : string) (port keepalive : Z) (kw : kwargs)
  | paho_disconnect
  | loop_start
  | loop_forever
  | paho_loop (timeout : Q)
  | paho_subscribe (topic : string)
  | paho_publish (topic : string) (value : payload).

(** Calls of a handler found in a callback slot.  Each one receives the
    client itself as its first argument. *)
Inductive user_call : Type :=
  | call_on_connect (h : handler)
  | call_on_disconnect (h : handler)
  | call_on_message (h : handler) (feed_id : string) (data : payload).

Inductive effect : Type :=
  | Debug (text : string)
  | Paho (c : paho_call)
  | User (c : user_call).

(** What a method leaves behind: how it ended, the client, and the calls
    it made on external code, in the order it made them.  The attributes
    assigned before an exception was raised stay assigned. *)
Record run (A : Type) : Type := mkRun {
  result : outcome A;
  after : client handler;
  effects : list effect
}.
Arguments mkRun {A} result after effects.
Arguments result {A} r.
Arguments after {A} r.
Arguments effects {A} r.

Definition M (A : Type) : Type := client handler -> run A.

Definition ret {A} (a : A) : M A := fun c => mkRun (Return a) c [].

Definition bind {A B} (m : M A) (k : A -> M B) : M B :=
  fun c =>
    let r := m c in
    match result r with
    | Raise e => mkRun (Raise e) (after r) (effects r)
    | Return a =>
        let r' := k a (after r) in
        mkRun (result r') (after r') (effects r ++ effects r')
    end.

Definition raise {A} (e : exn) : M A := fun c => mkRun (Raise e) c [].
Definition emit (e : effect) : M unit := fun c => mkRun (Return tt) c [e].
Definition get {A} (field : client handler -> A) : M A := fun c => mkRun (Return (field c)) c [].
Definition set_connected (b : bool) : M unit :=
  fun c =>
    mkRun (Return tt)
      (mkClient (on_connect c) (on_disconnect c) (on_message c) b) [].

Definition debug (text : string) : M unit := emit (Debug text).
Definition paho (p : paho_call) : M unit := emit (Paho p).
Definition user (u : user_call) : M unit := emit (User u).

Notation "x <- m ;; k" := (bind m (fun x => k))
  (at level 61, m at next level, right associativity).
Notation "m ;; k" := (bind m (fun _ => k))
  (at level 61, right associativity).

(** ** The methods of [MQTTClient] *)

(** [__init__(self, key)]: the effects of the constructor and the object
    it leaves. *)
Definition __init__ (key : string) : run unit :=
  mkRun (Return tt)
    (mkClient None None None false)
    [Paho Client_new; Paho (username_pw_set key);
     Paho set_on_connect; Paho set_on_disconnect; Paho set_on_message].

(** [_mqtt_connect(self, client, userdata, flags, rc)]; only [rc] is read. *)
Definition _mqtt_connect (rc : Z) : M unit :=
  debug "Client on_connect called." ;;
  (if rc =? 0
   then set_connected true
   else raise (RuntimeError
                 (PyStr.format "Error connecting to Adafruit IO with rc: {0}"
                    (PyStr.str_int rc)))) ;;
  h <- get on_connect ;;
  match h with
  | Some f => user (call_on_connect f)
  | None => ret tt
  end.

(** [_mqtt_disconnect(self, client, userdata, rc)] *)
Definition _mqtt_disconnect (rc : Z) : M unit :=
  debug "Client on_disconnect called." ;;
  set_connected false ;;
  (if negb (rc =? 0)
   then raise (RuntimeError
                 (PyStr.format "Unexpected disconnect with rc: {0}"
                    (PyStr.str_int rc)))
   else ret tt) ;;
  h <- get on_disconnect ;;
  match h with
  | Some f => user (call_on_disconnect f)
  | None => ret tt
  end.

(** [_mqtt_message(self, client, userdata, msg)] *)
Definition _mqtt_message (msg : message payload) : M unit :=
  debug "Client on_message called." ;;
  h <- get on_message ;;
  match h with
  | Some f =>
      if (PyStr.startswith (topic msg) "api/feeds/"
          && (31 <=? PyStr.len (topic msg)))%bool
      then
        let feed_id := PyStr.slice (topic msg) 10 (-21) in
        user (call_on_message f feed_id (msg_payload msg))
      else ret tt
  | None => ret tt
  end.

(** The first keyword of [**kwargs], in the order of the dictionary,
    that the call in [connect] also writes out, [port] or [keepalive]:
    the one CPython 3 names in the [TypeError]. *)
Definition clash (kw : kwargs) : option string :=
  match
    find (fun p => (String.eqb (fst p) "port"
                    || String.eqb (fst p) "keepalive")%bool) kw
  with
  | Some p => Some (fst p)
  | None => None
  end.

(** [connect(self, **kwargs)].  The call
    [self._client.connect(SERVICE_HOST, port=SERVICE_PORT,
    keepalive=KEEP_ALIVE_SEC, **kwargs)] is not made when [kwargs] has
    [port] or [keepalive]: putting its arguments together raises
    [TypeError]. *)
Definition connect (kw : kwargs) : M unit :=
  b <- get _connected ;;
  if b then ret tt
  else
    match clash kw with
    | Some k => raise (TypeError k)
    | None => paho (paho_connect SERVICE_HOST SERVICE_PORT KEEP_ALIVE_SEC kw)
    end.

(** [is_connected(self)] *)
Definition is_connected : M bool := get _connected.

(** [disconnect(self)] *)
Definition disconnect : M unit :=
  b <- get _connected ;;
  if b then paho paho_disconnect else ret tt.

(** [loop_background(self)] *)
Definition loop_background : M unit := paho loop_start.

(** [loop_blocking(self)] *)
Definition loop_blocking : M unit := paho loop_forever.

(** [loop(self, timeout_sec=1.0)] *)
Definition loop (timeout_sec : Q) : M unit := paho (paho_loop timeout_sec).
Definition loop_default_timeout : Q := 1%Q.

(** [subscribe(self, feed_id)] *)
Definition subscribe (feed_id : string) : M unit :=
  paho (paho_subscribe
          (PyStr.format "api/feeds/{0}/streams/receive.json" feed_id)).

(** [publish(self, feed_id, value)] *)
Definition publish (feed_id : string) (value : payload) : M unit :=
  paho (paho_publish
          (PyStr.format "api/feeds/{0}/streams/send.json" feed_id) value).

(** ** Runs of a client *)

(** What can happen to a client between its construction and a reading of
    the flag: a call of a public method, a callback of the transport, or an
    assignment by the user to one of the three public callback attributes. *)
Inductive action : Type :=
  | do_connect (kw : kwargs)
  | do_is_connected
  | do_disconnect
  | do_loop_background
  | do_loop_blocking
  | do_loop (timeout_sec : Q)
  | do_subscribe (feed_id : string)
  | do_publish (feed_id : string) (value : payload)
  | paho_on_connect (rc : Z)
  | paho_on_disconnect (rc : Z)
  | paho_on_message (msg : message payload)
  | assign_on_connect (h : option handler)
  | assign_on_disconnect (h : option handler)
  | assign_on_message (h : option handler).

Definition assign (f : client handler -> client handler) : M unit :=
  fun c => mkRun (Return tt) (f c) [].

Definition perform (a : action) : M unit :=
  match a with
  | do_connect kw => connect kw
  | do_is_connected => _ <- is_connected ;; ret tt
  | do_disconnect => disconnect
  | do_loop_background => loop_background
  | do_loop_blocking => loop_blocking
  | do_loop t => loop t
  | do_subscribe f => subscribe f
  | do_publish f v => publish f v
  | paho_on_connect rc => _mqtt_connect rc
  | paho_on_disconnect rc => _mqtt_disconnect rc
  | paho_on_message msg => _mqtt_message msg
  | assign_on_connect h =>
      assign (fun c => mkClient h (on_disconnect c) (on_message c) (_connected c))
  | assign_on_disconnect h =>
      assign (fun c => mkClient (on_connect c) h (on_message c) (_connected c))
  | assign_on_message h =>
      assign (fun c => mkClient (on_connect c) (on_disconnect c) h (_connected c))
  end.

(** The client after a sequence of actions.  An action that raises leaves
    the client as it was when the exception left the method, and the run
    goes on: the caller may catch the exception. *)
Definition exec (acts : list action) (c : client handler) : client handler :=
  fold_left (fun c a => after (perform a c)) acts c.

(** ** Observations on the effects of a method *)

Definition is_user (e : effect) : bool :=
  match e with User _ => true | _ => false end.

Definition is_paho (e : effect) : bool :=
  match e with Paho _ => true | _ => false end.

(** The message callback reaches the user's handler. *)
Definition dispatches (msg : message payload) (c : client handler) : bool :=
  existsb is_user (effects (_mqtt_message msg c)).

(** ** Kinds of actions and the effects of a run *)

(** A call of a public method. *)
Definition is_method (a : action) : bool :=
  match a with
  | do_connect _ | do_is_connected | do_disconnect
  | do_loop_background | do_loop_blocking | do_loop _
  | do_subscribe _ | do_publish _ _ => true
  | _ => false
  end.

(** A callback the transport makes. *)
Definition is_callback (a : action) : bool :=
  match a with
  | paho_on_connect _ | paho_on_disconnect _ | paho_on_message _ => true
  | _ => false
  end.

(** An assignment by the user to a callback attribute. *)
Definition is_assign (a : action) : bool :=
  match a with
  | assign_on_connect _ | assign_on_disconnect _ | assign_on_message _ => true
  | _ => false
  end.

(** The effects of a sequence of actions, in order; the client moves on
    as in [exec]. *)
Fixpoint trace (acts : list action) (c : client handler) : list effect :=
  match acts with
  | [] => []
  | a :: rest => effects (perform a c) ++ trace rest (after (perform a c))
  end.

(** ** Facts about the string operations *)

Lemma length_app (a b : string) :
  String.length (a ++ b) = (String.length a + String.length b)%nat.
Proof.
  induction a as [|ch a IH]; simpl; [reflexivity | now rewrite IH].
Qed.

Lemma substring_app_head (a b : string) :
  String.substring 0 (String.length a) (a ++ b) = a.
Proof.
  induction a as [|ch a IH]; simpl.
  - now destruct b.
  - now rewrite IH.
Qed.

Lemma append_empty_r (a : string) : a ++ "" = a.
Proof.
  induction a as [|ch a IH]; simpl; [reflexivity | now rewrite IH].
Qed.

(** A template that ends in its replacement field. *)
Lemma format_connect_error (a : string) :
  PyStr.format "Error connecting to Adafruit IO with rc: {0}" a
  = "Error connecting to Adafruit IO with rc: " ++ a.
Proof.
  change (PyStr.format "Error connecting to Adafruit IO with rc: {0}" a)
    with ("Error connecting to Adafruit IO with rc: " ++ (a ++ "")).
  now rewrite append_empty_r.
Qed.

Lemma format_disconnect_error (a : string) :
  PyStr.format "Unexpected disconnect with rc: {0}" a
  = "Unexpected disconnect with rc: " ++ a.
Proof.
  change (PyStr.format "Unexpected disconnect with rc: {0}" a)
    with ("Unexpected disconnect with rc: " ++ (a ++ "")).
  now rewrite append_empty_r.
Qed.

(** The text of an integer determines the integer. *)
Lemma parse_str_int (d : Decimal.int) :
  exists d', NilZero.int_of_string (NilZero.string_of_int d) = Some d'
             /\ Z.of_int d' = Z.of_int d.
Proof.
  destruct d as [u|u]; destruct u;
    try (eexists; split; [reflexivity | reflexivity]);
    (eexists; split; [apply NilZero.isi; discriminate | reflexivity]).
Qed.

Lemma str_int_inj (z z' : Z) : PyStr.str_int z = PyStr.str_int z' -> z = z'.
Proof.
  unfold PyStr.str_int. intros E.
  destruct (parse_str_int (Z.to_int z)) as [d [P1 Q1]].
  destruct (parse_str_int (Z.to_int z')) as [d' [P2 Q2]].
  rewrite E, P2 in P1. injection P1 as <-.
  rewrite DecimalZ.of_to in Q1, Q2. congruence.
Qed.

(** The inbound topic of a feed has the prefix and the length the message
    callback looks for, and its slice is the feed. *)
Lemma receive_topic_shape (f : string) :
  let t := "api/feeds/" ++ f ++ "/streams/receive.json" in
  PyStr.startswith t "api/feeds/" = true
  /\ PyStr.len t = 31 + PyStr.len f
  /\ PyStr.slice t 10 (-21) = f.
Proof.
  cbv zeta. split; [now destruct f|].
  assert (L : PyStr.len ("api/feeds/" ++ f ++ "/streams/receive.json")
              = 31 + PyStr.len f).
  { unfold PyStr.len. rewrite !length_app. simpl String.length. lia. }
  split; [exact L|].
  unfold PyStr.slice. rewrite L. unfold PyStr.clamp, PyStr.len.
  assert (H0 : 0 <= Z.of_nat (String.length f)) by lia.
  replace (10 <? 0) with false by reflexivity.
  replace (-21 <? 0) with true by reflexivity.
  rewrite Z.min_l by lia. rewrite Z.max_l by lia.
  replace (-21 + (31 + Z.of_nat (String.length f)) - 10)
    with (Z.of_nat (String.length f)) by lia.
  rewrite Nat2Z.id. change (Z.to_nat 10) with 10%nat.
  simpl. apply substring_app_head.
Qed.

Example slice_mid : PyStr.slice "api/feeds/abc/streams/receive.json" 10 (-21) = "abc".
Proof. reflexivity. Qed.

Example slice_short : PyStr.slice "api/feeds/" 10 (-21) = "".
Proof. reflexivity. Qed.

Example str_int_neg : PyStr.str_int (-12) = "-12".
Proof. reflexivity. Qed.

Example str_int_zero : PyStr.str_int 0 = "0".
Proof. reflexivity. Qed.

Example format_feed (f : string) :
  PyStr.format "api/feeds/{0}/streams/send.json" f
  = "api/feeds/" ++ f ++ "/streams/send.json".
Proof. reflexivity. Qed.

Example endswith_yes : PyStr.endswith "a/streams/receive.json" "/streams/receive.json" = true.
Proof. reflexivity. Qed.


(** ** The keywords of [connect] *)

Lemma clash_none (kw : kwargs) :
  (forall k v, In (k, v) kw -> k <> "port" /\ k <> "keepalive") ->
  clash kw = None.
Proof.
  intros Hk. unfold clash.
  destruct (find _ kw) as [[k v]|] eqn:E; [|reflexivity].
  apply find_some in E as [Hin Hb]. cbn [fst] in Hb.
  destruct (Hk k v Hin) as [Hp Ha].
  apply String.eqb_neq in Hp, Ha. rewrite Hp, Ha in Hb. discriminate Hb.
Qed.

Lemma clash_some (kw : kwargs) (k : string) :
  clash kw = Some k ->
  (k = "port" \/ k = "keepalive") /\ exists v, In (k, v) kw.
Proof.
  unfold clash. destruct (find _ kw) as [[k' v]|] eqn:E; [|discriminate].
  intros [= <-]. apply find_some in E as [Hin Hb]. cbn [fst] in *.
  split; [|now exists v].
  apply orb_prop in Hb as [Hb|Hb]; apply String.eqb_eq in Hb; auto.
Qed.

Lemma connect_cases (kw : kwargs) (c : client handler) :
  connect kw c
  = if _connected c then mkRun (Return tt) c []
    else match clash kw with
         | Some k => mkRun (Raise (TypeError k)) c []
         | None =>
             mkRun (Return tt) c
               [Paho (paho_connect SERVICE_HOST SERVICE_PORT KEEP_ALIVE_SEC kw)]
         end.
Proof.
  unfold connect, bind, get, ret, raise, paho, emit.
  cbn [result after effects].
  destruct (_connected c); [reflexivity|]. now destruct (clash kw).
Qed.

Lemma connect_same (kw : kwargs) (c : client handler) :
  after (connect kw c) = c.
Proof.
  rewrite connect_cases.
  destruct (_connected c); [reflexivity|]. now destruct (clash kw).
Qed.

(** ** The message callback *)

(** C1, as the code has it: the handler in [on_message] is reached exactly
    when the slot is filled, the topic starts with [api/feeds/] and the
    topic is at least 31 characters long; the end of the topic is not
    looked at.  In every case the callback returns without raising, leaves
    the client as it was, and does nothing else than write its debug
    line. *)
Theorem message_dispatch_condition (msg : message payload) (c : client handler) :
  (dispatches msg c = true <->
     on_message c <> None
     /\ PyStr.startswith (topic msg) "api/feeds/" = true
     /\ 31 <= PyStr.len (topic msg))
  /\ result (_mqtt_message msg c) = Return tt
  /\ after (_mqtt_message msg c) = c
  /\ filter (fun e => negb (is_user e)) (effects (_mqtt_message msg c))
     = [Debug "Client on_message called."].
Proof.
  unfold dispatches, _mqtt_message, bind, debug, emit, get, user, ret.
  cbn [result after effects app].
  destruct (on_message c) as [f|] eqn:Hf.
  - destruct (PyStr.startswith (topic msg) "api/feeds/") eqn:Hp;
      destruct (31 <=? PyStr.len (topic msg)) eqn:Hl;
      cbn; repeat split; try reflexivity; try discriminate;
      try (intros [_ [A B]]; try discriminate; apply Z.leb_le in B; congruence);
      try (apply Z.leb_le; exact Hl).
  - cbn. repeat split; try reflexivity; try discriminate.
    intros [A _]. now contradiction A.
Qed.

(** C2: a message on the inbound topic of feed [F] reaches the handler
    with [F] itself and the payload as it came; the topic is the one
    [subscribe F] asks the transport for. *)
Theorem inbound_topic_roundtrip
    (F : string) (P : payload) (h : handler) (c : client handler)
    (H : on_message c = Some h) :
  effects (subscribe F c)
  = [Paho (paho_subscribe ("api/feeds/" ++ F ++ "/streams/receive.json"))]
  /\ _mqtt_message
       (mkMessage ("api/feeds/" ++ F ++ "/streams/receive.json") P) c
     = mkRun (Return tt) c
         [Debug "Client on_message called."; User (call_on_message h F P)].
Proof.
  split; [reflexivity|].
  destruct (receive_topic_shape F) as [Hp [Hl Hs]].
  unfold _mqtt_message, bind, debug, emit, get, user, ret.
  cbn [result after effects app topic msg_payload].
  rewrite H, Hp, Hl, Hs.
  assert (E : (31 <=? 31 + PyStr.len F) = true).
  { apply Z.leb_le. unfold PyStr.len. lia. }
  rewrite E. reflexivity.
Qed.

(** ** The connection flag *)

Lemma connect_callback_flag (rc : Z) (c : client handler) :
  _connected (after (_mqtt_connect rc c))
  = if rc =? 0 then true else _connected c.
Proof.
  unfold _mqtt_connect, bind, debug, emit, get, user, ret, raise, set_connected.
  cbn [result after effects].
  destruct (rc =? 0); cbn; [|reflexivity].
  now destruct (on_connect c).
Qed.

Lemma disconnect_callback_flag (rc : Z) (c : client handler) :
  _connected (after (_mqtt_disconnect rc c)) = false.
Proof.
  unfold _mqtt_disconnect, bind, debug, emit, get, user, ret, raise, set_connected.
  cbn [result after effects].
  destruct (rc =? 0); cbn; [|reflexivity].
  now destruct (on_disconnect c).
Qed.

Lemma message_callback_same (msg : message payload) (c : client handler) :
  after (_mqtt_message msg c) = c.
Proof.
  unfold _mqtt_message, bind, debug, emit, get, user, ret.
  cbn [result after effects].
  destruct (on_message c); [|reflexivity].
  now destruct (_ && _)%bool.
Qed.

(** The flag after one action, from the flag before it. *)
Lemma perform_flag (a : action) (c : client handler) :
  _connected (after (perform a c))
  = match a with
    | paho_on_connect rc => if rc =? 0 then true else _connected c
    | paho_on_disconnect _ => false
    | _ => _connected c
    end.
Proof.
  destruct a; try reflexivity.
  - cbn [perform]. now rewrite connect_same.
  - unfold perform, disconnect, bind, get, ret, paho, emit.
    cbn [result after effects]. now destruct (_connected c) eqn:E.
  - apply connect_callback_flag.
  - apply disconnect_callback_flag.
  - cbn [perform]. now rewrite message_callback_same.
Qed.

Lemma exec_stays_false (acts : list action) (c : client handler) :
  _connected c = false ->
  Forall (fun a => a <> paho_on_connect 0) acts ->
  _connected (exec acts c) = false.
Proof.
  revert c. induction acts as [|a acts IH]; intros c Hc Hall; [exact Hc|].
  inversion Hall as [|? ? Ha Hrest]; subst.
  cbn [exec fold_left]. apply IH; [|exact Hrest].
  rewrite perform_flag. destruct a; try exact Hc; try reflexivity.
  destruct (Z.eqb_spec rc 0) as [->|]; [now contradiction Ha | exact Hc].
Qed.

(** C3: the flag [is_connected] reads is false in a new client and stays
    false through any actions among which there is no connect callback with
    reason code 0; after one action it is true exactly when the action was
    such a callback, or the flag was true and the action was not a
    disconnect callback; after a disconnect callback it is false. *)
Theorem connection_flag_lifecycle (key : string) :
  (forall c, result (is_connected c) = Return (_connected c))
  /\ _connected (after (__init__ key)) = false
  /\ (forall acts,
        Forall (fun a => a <> paho_on_connect 0) acts ->
        _connected (exec acts (after (__init__ key))) = false)
  /\ (forall a c,
        _connected (after (perform a c)) = true <->
        a = paho_on_connect 0
        \/ (_connected c = true /\ forall rc, a <> paho_on_disconnect rc))
  /\ (forall rc c, _connected (after (_mqtt_disconnect rc c)) = false).
Proof.
  split; [reflexivity|]. split; [reflexivity|].
  split; [intros acts; now apply exec_stays_false|].
  split; [|apply disconnect_callback_flag].
  intros a c. rewrite perform_flag. split.
  - destruct a; intros Hc; try (right; split; [exact Hc | discriminate]).
    + destruct (Z.eqb_spec rc 0) as [->|];
        [now left | right; split; [exact Hc | discriminate]].
    + discriminate.
  - intros [->|[Hc Hn]]; [reflexivity|].
    destruct a; try exact Hc.
    + now destruct (rc =? 0).
    + now contradiction (Hn rc).
Qed.

(** ** The connect and disconnect callbacks *)

(** C4: with a reason code other than 0 the connect callback raises an
    error whose text ends in that code and determines it, changes nothing
    in the client, so that a flag that was false reads false, and does not
    reach the handler in [on_connect]. *)
Theorem connect_refused (rc : Z) (c : client handler) (H : rc <> 0) :
  _mqtt_connect rc c
  = mkRun
      (Raise (RuntimeError
                ("Error connecting to Adafruit IO with rc: " ++ PyStr.str_int rc)))
      c [Debug "Client on_connect called."]
  /\ (forall rc', PyStr.str_int rc' = PyStr.str_int rc -> rc' = rc)
  /\ (_connected c = false ->
      result (is_connected (after (_mqtt_connect rc c))) = Return false)
  /\ existsb is_user (effects (_mqtt_connect rc c)) = false.
Proof.
  assert (E : _mqtt_connect rc c
    = mkRun
        (Raise (RuntimeError
                  ("Error connecting to Adafruit IO with rc: " ++ PyStr.str_int rc)))
        c [Debug "Client on_connect called."]).
  { unfold _mqtt_connect, bind, debug, emit, raise.
    cbn [result after effects].
    apply Z.eqb_neq in H. rewrite H, format_connect_error. reflexivity. }
  split; [exact E|]. split; [intros rc'; apply str_int_inj|].
  rewrite E. split; [|reflexivity].
  intros Hc. cbn. now rewrite Hc.
Qed.

(** C9: with a reason code other than 0 the disconnect callback has
    already set the flag to false when it raises, and does not reach the
    handler in [on_disconnect]. *)
Theorem unexpected_disconnect (rc : Z) (c : client handler) (H : rc <> 0) :
  _mqtt_disconnect rc c
  = mkRun
      (Raise (RuntimeError
                ("Unexpected disconnect with rc: " ++ PyStr.str_int rc)))
      (mkClient (on_connect c) (on_disconnect c) (on_message c) false)
      [Debug "Client on_disconnect called."]
  /\ _connected (after (_mqtt_disconnect rc c)) = false
  /\ existsb is_user (effects (_mqtt_disconnect rc c)) = false.
Proof.
  assert (E : _mqtt_disconnect rc c
    = mkRun
        (Raise (RuntimeError
                  ("Unexpected disconnect with rc: " ++ PyStr.str_int rc)))
        (mkClient (on_connect c) (on_disconnect c) (on_message c) false)
        [Debug "Client on_disconnect called."]).
  { unfold _mqtt_disconnect, bind, debug, emit, raise, set_connected.
    cbn [result after effects].
    apply Z.eqb_neq in H. rewrite H, format_disconnect_error. reflexivity. }
  rewrite E. repeat split.
Qed.

(** ** The public methods *)

(** C5: [connect] on a client whose flag is true returns at once, with no
    call on the transport and the client as it was. *)
Theorem connect_when_connected (kw : kwargs) (c : client handler)
    (H : _connected c = true) :
  connect kw c = mkRun (Return tt) c [].
Proof. unfold connect, bind, get, ret. cbn. now rewrite H. Qed.

(** C6: [disconnect] on a client whose flag is false returns at once, with
    no call on the transport and the client as it was. *)
Theorem disconnect_when_disconnected (c : client handler)
    (H : _connected c = false) :
  disconnect c = mkRun (Return tt) c [].
Proof. unfold disconnect, bind, get, ret. cbn. now rewrite H. Qed.

(** C7: [publish F V] makes one call on the transport, a publish of [V]
    on the outbound topic of [F], and returns nothing. *)
Theorem publish_one_call (F : string) (V : payload) (c : client handler) :
  publish F V c
  = mkRun (Return tt) c
      [Paho (paho_publish ("api/feeds/" ++ F ++ "/streams/send.json") V)].
Proof. reflexivity. Qed.

(** C8, as the code has it: [connect] on a client whose flag is false,
    with keyword arguments that name neither [port] nor [keepalive],
    opens the transport to host [io.adafruit.com], port 1883, with a
    keep-alive of 3600 seconds and the keyword arguments it was given. *)
Theorem connect_parameters (kw : kwargs) (c : client handler)
    (H : _connected c = false)
    (Hk : forall k v, In (k, v) kw -> k <> "port" /\ k <> "keepalive") :
  connect kw c
  = mkRun (Return tt) c [Paho (paho_connect "io.adafruit.com" 1883 3600 kw)].
Proof. now rewrite connect_cases, H, (clash_none kw Hk). Qed.

(** C10: [subscribe] and [publish] leave the flag and the three callback
    slots as they were. *)
Theorem subscribe_publish_frame (F : string) (V : payload) (c : client handler) :
  after (subscribe F c) = c
  /\ after (publish F V c) = c
  /\ (_connected (after (subscribe F c)) = _connected c
      /\ on_connect (after (subscribe F c)) = on_connect c
      /\ on_disconnect (after (subscribe F c)) = on_disconnect c
      /\ on_message (after (subscribe F c)) = on_message c)
  /\ (_connected (after (publish F V c)) = _connected c
      /\ on_connect (after (publish F V c)) = on_connect c
      /\ on_disconnect (after (publish F V c)) = on_disconnect c
      /\ on_message (after (publish F V c)) = on_message c).
Proof. repeat split. Qed.

(** ** Slices of a topic *)

Lemma substring_glue (t : string) (a m k : nat) :
  String.substring a m t ++ String.substring (a + m) k t
  = String.substring a (m + k) t.
Proof.
  revert a m k. induction t as [|ch t IH]; intros a m k.
  - destruct a, m, k; reflexivity.
  - destruct a as [|a].
    + destruct m as [|m]; [reflexivity|].
      simpl. f_equal. apply (IH 0%nat m k).
    + simpl. apply IH.
Qed.

Lemma substring_whole (t : string) (n : nat) :
  (String.length t <= n)%nat -> String.substring 0 n t = t.
Proof.
  revert n. induction t as [|ch t IH]; intros n Hn.
  - now destruct n.
  - destruct n as [|n]; simpl in *; [lia|]. f_equal. apply IH. lia.
Qed.

Lemma substring_length (t : string) (a m : nat) :
  (a + m <= String.length t)%nat ->
  String.length (String.substring a m t) = m.
Proof.
  revert a m. induction t as [|ch t IH]; intros a m Hm; simpl in Hm.
  - now replace a with 0%nat by lia; replace m with 0%nat by lia.
  - destruct a as [|a].
    + destruct m as [|m]; [reflexivity|]. simpl. f_equal.
      apply (IH 0%nat m). simpl. lia.
    + simpl. apply IH. lia.
Qed.

Lemma substring_app_le (a b : string) (m : nat) :
  (m <= String.length a)%nat ->
  String.substring 0 m (a ++ b) = String.substring 0 m a.
Proof.
  revert m. induction a as [|ch a IH]; intros m Hm; simpl in Hm.
  - replace m with 0%nat by lia. now destruct b.
  - destruct m as [|m]; [reflexivity|]. simpl. f_equal. apply IH. lia.
Qed.

Lemma append_inv_tail (a b q : string) : a ++ q = b ++ q -> a = b.
Proof.
  intros E.
  assert (L : String.length a = String.length b).
  { apply (f_equal String.length) in E. rewrite !length_app in E. lia. }
  rewrite <- (substring_app_head a q), <- (substring_app_head b q).
  now rewrite E, L.
Qed.

(** [t[p:-q]] and [t[-q:]] of a topic long enough for both. *)
Lemma slice_inner (t : string) (p q : nat) :
  (0 < q)%nat -> (p + q <= String.length t)%nat ->
  PyStr.slice t (Z.of_nat p) (- Z.of_nat q)
  = String.substring p (String.length t - p - q) t.
Proof.
  intros Hq Hl. unfold PyStr.slice, PyStr.clamp, PyStr.len.
  destruct (Z.ltb_spec (Z.of_nat p) 0) as [?|_]; [lia|].
  destruct (Z.ltb_spec (- Z.of_nat q) 0) as [_|?]; [|lia].
  rewrite Z.min_l by lia. rewrite Z.max_l by lia.
  rewrite Nat2Z.id. f_equal. lia.
Qed.

Lemma slice_last (t : string) (q : nat) :
  (0 < q)%nat -> (q <= String.length t)%nat ->
  PyStr.slice t (- Z.of_nat q) (PyStr.len t)
  = String.substring (String.length t - q) q t.
Proof.
  intros Hq Hl. unfold PyStr.slice, PyStr.clamp, PyStr.len.
  destruct (Z.ltb_spec (- Z.of_nat q) 0) as [_|?]; [|lia].
  destruct (Z.ltb_spec (Z.of_nat (String.length t)) 0) as [?|_]; [lia|].
  rewrite Z.min_id. rewrite Z.max_l by lia.
  f_equal; lia.
Qed.

(** X3: whatever topic passes the test of the message callback, the
    handler gets the part of it between the first 10 and the last 21
    characters: that part is 31 characters shorter than the topic, and
    the topic is [api/feeds/], then that part, then the topic's own last
    21 characters. *)
Theorem dispatched_feed_id
    (msg : message payload) (c : client handler) (h : handler)
    (Hh : on_message c = Some h)
    (Hp : PyStr.startswith (topic msg) "api/feeds/" = true)
    (Hl : 31 <= PyStr.len (topic msg)) :
  let feed_id := PyStr.slice (topic msg) 10 (-21) in
  effects (_mqtt_message msg c)
  = [Debug "Client on_message called.";
     User (call_on_message h feed_id (msg_payload msg))]
  /\ PyStr.len feed_id = PyStr.len (topic msg) - 31
  /\ topic msg
     = "api/feeds/" ++ feed_id
       ++ PyStr.slice (topic msg) (-21) (PyStr.len (topic msg)).
Proof.
  cbv zeta. split.
  { unfold _mqtt_message, bind, debug, emit, get, user, ret.
    cbn [result after effects app]. rewrite Hh, Hp.
    apply Z.leb_le in Hl. rewrite Hl. reflexivity. }
  set (t := topic msg) in *. unfold PyStr.len in Hl.
  assert (Hn : (31 <= String.length t)%nat) by lia.
  change (PyStr.slice t 10 (-21))
    with (PyStr.slice t (Z.of_nat 10) (- Z.of_nat 21)).
  change (PyStr.slice t (-21) (PyStr.len t))
    with (PyStr.slice t (- Z.of_nat 21) (PyStr.len t)).
  rewrite slice_inner by lia. rewrite slice_last by lia.
  split.
  - unfold PyStr.len. rewrite substring_length by lia. lia.
  - apply prefix_correct in Hp. simpl String.length in Hp.
    rewrite <- Hp at 1.
    replace (String.length t - 21)%nat
      with (10 + (String.length t - 10 - 21))%nat by lia.
    rewrite substring_glue.
    rewrite (substring_glue t 0 10).
    symmetry. apply substring_whole. lia.
Qed.

(** X4: two feeds never share a topic: [subscribe] asks the transport
    for the same topic only for the same feed, and [publish] makes the
    same transport call only for the same feed and value. *)
Theorem feed_topics_injective
    (F F' : string) (V V' : payload) (c c' : client handler) :
  (effects (subscribe F c) = effects (subscribe F' c') <-> F = F')
  /\ (effects (publish F V c) = effects (publish F' V' c')
      <-> F = F' /\ V = V').
Proof.
  split; split.
  - intros E. injection E as E.
    change (PyStr.format "api/feeds/{0}/streams/receive.json" F)
      with ("api/feeds/" ++ (F ++ "/streams/receive.json")) in E.
    change (PyStr.format "api/feeds/{0}/streams/receive.json" F')
      with ("api/feeds/" ++ (F' ++ "/streams/receive.json")) in E.
    now apply append_inv_tail in E.
  - now intros ->.
  - intros E. injection E as E EV. split; [|exact EV].
    change (PyStr.format "api/feeds/{0}/streams/send.json" F)
      with ("api/feeds/" ++ (F ++ "/streams/send.json")) in E.
    change (PyStr.format "api/feeds/{0}/streams/send.json" F')
      with ("api/feeds/" ++ (F' ++ "/streams/send.json")) in E.
    now apply append_inv_tail in E.
  - now intros [-> ->].
Qed.

(** X13: a message that comes in on the topic [publish] uses for feed
    [F] reaches the handler exactly when [F] has at least three
    characters, and then as feed [F[:-3]], [F] without its last three. *)
Theorem outbound_topic_received
    (F : string) (P : payload) (h : handler) (c : client handler)
    (Hh : on_message c = Some h) :
  effects
    (_mqtt_message (mkMessage ("api/feeds/" ++ F ++ "/streams/send.json") P) c)
  = Debug "Client on_message called."
    :: (if 3 <=? PyStr.len F
        then [User (call_on_message h (PyStr.slice F 0 (-3)) P)]
        else []).
Proof.
  set (t := "api/feeds/" ++ F ++ "/streams/send.json").
  assert (Lt : String.length t = (28 + String.length F)%nat).
  { unfold t. rewrite !length_app. simpl String.length. lia. }
  assert (Hp : PyStr.startswith t "api/feeds/" = true) by now destruct F.
  unfold _mqtt_message, bind, debug, emit, get, user, ret.
  cbn [result after effects app topic msg_payload]. rewrite Hh, Hp.
  unfold PyStr.len at 1. rewrite Lt. unfold PyStr.len.
  destruct (Z.leb_spec 3 (Z.of_nat (String.length F))) as [H3|H3].
  - assert (E : (31 <=? Z.of_nat (28 + String.length F)) = true)
      by (apply Z.leb_le; lia).
    rewrite E. cbn [andb app effects].
    change (PyStr.slice t 10 (-21))
      with (PyStr.slice t (Z.of_nat 10) (- Z.of_nat 21)).
    change (PyStr.slice F 0 (-3))
      with (PyStr.slice F (Z.of_nat 0) (- Z.of_nat 3)).
    rewrite !slice_inner by lia. rewrite Lt.
    replace (28 + String.length F - 10 - 21)%nat
      with (String.length F - 0 - 3)%nat by lia.
    unfold t. simpl. rewrite substring_app_le by lia. reflexivity.
  - assert (E : (31 <=? Z.of_nat (28 + String.length F)) = false)
      by (apply Z.leb_gt; lia).
    rewrite E. reflexivity.
Qed.

(** ** Both branches of the connect and disconnect callbacks *)

(** X1: the connect callback returns normally exactly for reason code 0;
    it then sets the flag and calls the handler in [on_connect] once if
    there is one; for any other code it calls no handler and changes
    nothing.  It never calls the transport. *)
Theorem connect_callback_outcome (rc : Z) (c : client handler) :
  (result (_mqtt_connect rc c) = Return tt <-> rc = 0)
  /\ filter is_user (effects (_mqtt_connect rc c))
     = (if rc =? 0
        then match on_connect c with
             | Some h => [User (call_on_connect h)]
             | None => []
             end
        else [])
  /\ existsb is_paho (effects (_mqtt_connect rc c)) = false
  /\ after (_mqtt_connect rc c)
     = mkClient (on_connect c) (on_disconnect c) (on_message c)
         (if rc =? 0 then true else _connected c).
Proof.
  unfold _mqtt_connect, bind, debug, emit, get, user, ret, raise, set_connected.
  cbn [result after effects].
  destruct (Z.eqb_spec rc 0) as [->|Hrc]; cbn.
  - destruct (on_connect c); cbn; repeat split; reflexivity.
  - repeat split; try discriminate; try (now destruct c).
Qed.

(** X2: the disconnect callback clears the flag whatever the reason
    code; it returns normally exactly for code 0, and then calls the
    handler in [on_disconnect] once if there is one.  It never calls the
    transport. *)
Theorem disconnect_callback_outcome (rc : Z) (c : client handler) :
  (result (_mqtt_disconnect rc c) = Return tt <-> rc = 0)
  /\ filter is_user (effects (_mqtt_disconnect rc c))
     = (if rc =? 0
        then match on_disconnect c with
             | Some h => [User (call_on_disconnect h)]
             | None => []
             end
        else [])
  /\ existsb is_paho (effects (_mqtt_disconnect rc c)) = false
  /\ after (_mqtt_disconnect rc c)
     = mkClient (on_connect c) (on_disconnect c) (on_message c) false.
Proof.
  unfold _mqtt_disconnect, bind, debug, emit, get, user, ret, raise,
    set_connected.
  cbn [result after effects].
  destruct (Z.eqb_spec rc 0) as [->|Hrc]; cbn.
  - destruct (on_disconnect c); cbn; repeat split; reflexivity.
  - repeat split; try discriminate.
    intros ->. now contradiction Hrc.
Qed.

(** ** Runs *)

Lemma exec_app (l1 l2 : list action) (c : client handler) :
  exec (l1 ++ l2) c = exec l2 (exec l1 c).
Proof. apply fold_left_app. Qed.

Lemma exec_stays_true (acts : list action) (c : client handler) :
  _connected c = true ->
  Forall (fun a => forall rc, a <> paho_on_disconnect rc) acts ->
  _connected (exec acts c) = true.
Proof.
  revert c. induction acts as [|a acts IH]; intros c Hc Hall; [exact Hc|].
  inversion Hall as [|? ? Ha Hrest]; subst.
  cbn [exec fold_left]. apply IH; [|exact Hrest].
  rewrite perform_flag. destruct a; try exact Hc.
  - now destruct (rc =? 0).
  - now contradiction (Ha rc).
Qed.

(** X5: once a connect callback with reason code 0 has run, the flag is
    true for as long as no disconnect callback runs, whatever else is
    called and whatever came before. *)
Theorem flag_true_after_connect
    (before later : list action) (c : client handler)
    (H : Forall (fun a => forall rc, a <> paho_on_disconnect rc) later) :
  _connected (exec (before ++ paho_on_connect 0 :: later) c) = true.
Proof.
  rewrite exec_app. cbn [exec fold_left].
  apply exec_stays_true; [|exact H].
  now rewrite perform_flag.
Qed.

(** X6: once a disconnect callback has run, with any reason code, the
    flag is false for as long as no connect callback with code 0 runs;
    calling [connect] does not set it. *)
Theorem flag_false_after_disconnect
    (before later : list action) (rc : Z) (c : client handler)
    (H : Forall (fun a => a <> paho_on_connect 0) later) :
  _connected (exec (before ++ paho_on_disconnect rc :: later) c) = false.
Proof.
  rewrite exec_app. cbn [exec fold_left].
  apply exec_stays_false; [|exact H].
  now rewrite perform_flag.
Qed.

Lemma perform_slots (a : action) (c : client handler) :
  is_assign a = false ->
  on_connect (after (perform a c)) = on_connect c
  /\ on_disconnect (after (perform a c)) = on_disconnect c
  /\ on_message (after (perform a c)) = on_message c.
Proof.
  destruct a; intros Ha; try discriminate Ha; try (repeat split; reflexivity).
  - cbn [perform]. now rewrite connect_same.
  - unfold perform, disconnect, bind, get, ret, paho, emit.
    cbn [result after effects]. now destruct (_connected c).
  - cbn [perform]. unfold _mqtt_connect, bind, debug, emit, get, user, ret,
      raise, set_connected. cbn [result after effects].
    destruct (rc =? 0); cbn; [|repeat split; reflexivity].
    now destruct (on_connect c).
  - cbn [perform]. unfold _mqtt_disconnect, bind, debug, emit, get, user, ret,
      raise, set_connected. cbn [result after effects].
    destruct (rc =? 0); cbn; [|repeat split; reflexivity].
    now destruct (on_disconnect c).
  - cbn [perform]. now rewrite message_callback_same.
Qed.

(** X7: no method and no callback of the client touches a callback
    slot: after any actions among which the user assigns none, the three
    slots hold what they held. *)
Theorem slots_kept
    (acts : list action) (c : client handler)
    (H : forallb (fun a => negb (is_assign a)) acts = true) :
  on_connect (exec acts c) = on_connect c
  /\ on_disconnect (exec acts c) = on_disconnect c
  /\ on_message (exec acts c) = on_message c.
Proof.
  revert c H. induction acts as [|a acts IH]; intros c H.
  - repeat split.
  - cbn [forallb] in H. apply andb_prop in H as [Ha Hr].
    apply negb_true_iff in Ha.
    cbn [exec fold_left].
    destruct (IH (after (perform a c)) Hr) as [E1 [E2 E3]].
    destruct (perform_slots a c Ha) as [P1 [P2 P3]].
    unfold exec in E1, E2, E3.
    now rewrite E1, E2, E3, P1, P2, P3.
Qed.

Lemma perform_silent (a : action) (c : client handler) :
  on_connect c = None -> on_disconnect c = None -> on_message c = None ->
  is_assign a = false ->
  existsb is_user (effects (perform a c)) = false.
Proof.
  intros H1 H2 H3. destruct a; intros Ha; try discriminate Ha;
    try reflexivity.
  - cbn [perform]. rewrite connect_cases.
    destruct (_connected c); [reflexivity|]. now destruct (clash kw).
  - unfold perform, disconnect, bind, get, ret, paho, emit.
    cbn [result after effects]. now destruct (_connected c).
  - cbn [perform]. unfold _mqtt_connect, bind, debug, emit, get, user, ret,
      raise, set_connected. cbn [result after effects].
    destruct (rc =? 0); cbn; [|reflexivity]. now rewrite H1.
  - cbn [perform]. unfold _mqtt_disconnect, bind, debug, emit, get, user, ret,
      raise, set_connected. cbn [result after effects].
    destruct (rc =? 0); cbn; [|reflexivity]. now rewrite H2.
  - cbn [perform]. unfold _mqtt_message, bind, debug, emit, get, user, ret.
    cbn [result after effects]. now rewrite H3.
Qed.

Lemma trace_silent (acts : list action) (c : client handler) :
  on_connect c = None -> on_disconnect c = None -> on_message c = None ->
  forallb (fun a => negb (is_assign a)) acts = true ->
  existsb is_user (trace acts c) = false.
Proof.
  revert c. induction acts as [|a acts IH]; intros c H1 H2 H3 H;
    [reflexivity|].
  cbn [forallb] in H. apply andb_prop in H as [Ha Hr].
  apply negb_true_iff in Ha.
  cbn [trace]. rewrite existsb_app, (perform_silent a c H1 H2 H3 Ha).
  destruct (perform_slots a c Ha) as [P1 [P2 P3]].
  apply IH; try exact Hr; congruence.
Qed.

(** X8: a new client calls no handler, whatever is called on it and
    whatever the transport reports, until the user assigns one: the
    constructor leaves the three slots empty. *)
Theorem no_handler_until_assigned
    (key : string) (acts : list action)
    (H : forallb (fun a => negb (is_assign a)) acts = true) :
  existsb is_user (trace acts (after (__init__ key))) = false.
Proof. now apply trace_silent. Qed.

(** X9: in its own code, up to and with the one call it may make on
    the transport, a public method assigns no attribute of the client
    and calls no handler; the call on the transport, if any, is all it
    does; and it raises nothing itself, except that [connect] raises
    [TypeError] for a keyword [port] or [keepalive] found among its
    keyword arguments, and then has not called the transport. *)
Theorem methods_leave_client
    (a : action) (c : client handler) (H : is_method a = true) :
  after (perform a c) = c
  /\ forallb is_paho (effects (perform a c)) = true
  /\ (List.length (effects (perform a c)) <= 1)%nat
  /\ (result (perform a c) = Return tt
      \/ exists kw k,
           a = do_connect kw
           /\ _connected c = false
           /\ (k = "port" \/ k = "keepalive")
           /\ (exists v, In (k, v) kw)
           /\ perform a c = mkRun (Raise (TypeError k)) c []).
Proof.
  destruct a; try discriminate H; cbn [perform];
    try (repeat split; cbn; try lia; now left).
  - rewrite connect_cases.
    destruct (_connected c) eqn:Hc;
      [cbn; repeat split; try lia; now left|].
    destruct (clash kw) as [k|] eqn:Hk;
      [|cbn; repeat split; try lia; now left].
    cbn. repeat split; try lia. right. exists kw, k.
    destruct (clash_some kw k Hk) as [Hn Hv]. now repeat split.
  - unfold disconnect, bind, get, ret, paho, emit. cbn [result after effects].
    destruct (_connected c); cbn; repeat split; try lia; now left.
Qed.

(** X10: a callback of the transport never calls back into the
    transport, and calls at most one handler. *)
Theorem callbacks_no_transport
    (a : action) (c : client handler) (H : is_callback a = true) :
  existsb is_paho (effects (perform a c)) = false
  /\ (List.length (filter is_user (effects (perform a c))) <= 1)%nat.
Proof.
  destruct a; try discriminate H; cbn [perform].
  - unfold _mqtt_connect, bind, debug, emit, get, user, ret, raise,
      set_connected. cbn [result after effects].
    destruct (rc =? 0); cbn; [|split; [reflexivity|lia]].
    destruct (on_connect c); cbn; split; try reflexivity; lia.
  - unfold _mqtt_disconnect, bind, debug, emit, get, user, ret, raise,
      set_connected. cbn [result after effects].
    destruct (rc =? 0); cbn; [|split; [reflexivity|lia]].
    destruct (on_disconnect c); cbn; split; try reflexivity; lia.
  - unfold _mqtt_message, bind, debug, emit, get, user, ret.
    cbn [result after effects].
    destruct (on_message c); cbn; [|split; [reflexivity|lia]].
    destruct (_ && _)%bool; cbn; split; try reflexivity; lia.
Qed.

(** X11: [connect] does not set the flag itself, so a second [connect]
    before the connect callback has run opens the transport again; the
    keyword arguments of both calls name neither [port] nor
    [keepalive]. *)
Theorem connect_twice (kw kw' : kwargs) (c : client handler)
    (H : _connected c = false)
    (Hk : forall k v, In (k, v) kw -> k <> "port" /\ k <> "keepalive")
    (Hk' : forall k v, In (k, v) kw' -> k <> "port" /\ k <> "keepalive") :
  (connect kw ;; connect kw') c
  = mkRun (Return tt) c
      [Paho (paho_connect SERVICE_HOST SERVICE_PORT KEEP_ALIVE_SEC kw);
       Paho (paho_connect SERVICE_HOST SERVICE_PORT KEEP_ALIVE_SEC kw')].
Proof.
  unfold bind. rewrite !connect_cases, H, (clash_none kw Hk).
  cbn [result after effects].
  rewrite ?connect_cases, ?H, (clash_none kw' Hk'). reflexivity.
Qed.

(** X12: [disconnect] on a client whose flag is true asks the transport
    to disconnect and leaves the flag true: the flag falls only in the
    disconnect callback, and a second [disconnect] before it asks
    again. *)
Theorem disconnect_when_connected (c : client handler)
    (H : _connected c = true) :
  disconnect c = mkRun (Return tt) c [Paho paho_disconnect]
  /\ result (is_connected (after (disconnect c))) = Return true
  /\ (disconnect ;; disconnect) c
     = mkRun (Return tt) c [Paho paho_disconnect; Paho paho_disconnect].
Proof.
  unfold disconnect, is_connected, bind, get, ret, paho, emit.
  cbn [result after effects]. rewrite H. cbn. rewrite H. repeat split.
Qed.

End Client.

Arguments mkRun {payload handler kwvalue A} result after effects.
Arguments result {payload handler kwvalue A} r.
Arguments after {payload handler kwvalue A} r.
Arguments effects {payload handler kwvalue A} r.

(** ** The client at work

    Payloads are strings here, handlers numbers and keyword arguments
    names with integer values. *)

Example scenario_connect :
  let c := after
             (@_mqtt_connect string nat Z 0
                (after
                   (@connect string nat Z no_kwargs
                      (mkClient (Some 1%nat) None None false)))) in
  result (@is_connected string nat Z c) = Return true
  /\ effects
       (@_mqtt_connect string nat Z 0
          (mkClient (Some 1%nat) None None false))
     = [Debug "Client on_connect called."; User (call_on_connect 1%nat)].
Proof. split; reflexivity. Qed.

Example unrelated_topic_dropped :
  @dispatches string nat Z
    (mkMessage "other/topic" "1") online = false.
Proof. reflexivity. Qed.

(** C1 as the documentation words it, with the end of the topic in place of
    its length, fails in both directions: an outbound topic is long enough
    and reaches the handler, with a piece of the topic as the feed; and the
    topic of 30 characters in which prefix and suffix share their slash has
    both the prefix and the suffix and does not reach it. *)
Lemma dispatch_ignores_suffix :
  let m1 : message string :=
    mkMessage "api/feeds/temperature/streams/send.json" "21.5" in
  let m2 : message string :=
    mkMessage "api/feeds/streams/receive.json" "21.5" in
  ~ (@dispatches string nat Z m1 listener = true <->
       on_message listener <> None
       /\ PyStr.startswith (topic m1) "api/feeds/" = true
       /\ PyStr.endswith (topic m1) "/streams/receive.json" = true)
  /\ ~ (@dispatches string nat Z m2 listener = true <->
       on_message listener <> None
       /\ PyStr.startswith (topic m2) "api/feeds/" = true
       /\ PyStr.endswith (topic m2) "/streams/receive.json" = true)
  /\ effects (@_mqtt_message string nat Z m1 listener)
     = [Debug "Client on_message called.";
        User (call_on_message 7%nat "temperat" "21.5")].
Proof.
  cbv zeta. split; [|split].
  - intros [A _]. destruct (A eq_refl) as [_ [_ E]]. discriminate E.
  - intros [_ B].
    assert (X : @dispatches string nat Z
                  (mkMessage "api/feeds/streams/receive.json" "21.5") listener
                = true).
    { apply B. repeat split. discriminate. }
    discriminate X.
  - reflexivity.
Qed.

Lemma inbound_topic_roundtrip_witness :
  on_message listener = Some 7%nat
  /\ (effects (@subscribe string nat Z "temperature" listener)
      = [Paho (paho_subscribe "api/feeds/temperature/streams/receive.json")]
      /\ @_mqtt_message string nat Z
           (mkMessage "api/feeds/temperature/streams/receive.json" "21.5")
           listener
         = mkRun (Return tt) listener
             [Debug "Client on_message called.";
              User (call_on_message 7%nat "temperature" "21.5")]).
Proof.
  split; [reflexivity|].
  apply (@inbound_topic_roundtrip string nat Z
           "temperature" "21.5" 7%nat listener).
  reflexivity.
Defined.

Lemma connection_flag_lifecycle_witness :
  let acts : list (@action string nat Z) :=
    [assign_on_connect (Some 1%nat); do_connect no_kwargs;
     paho_on_connect 3; do_subscribe "temperature";
     paho_on_disconnect 0; do_publish "temperature" "21.5"] in
  Forall (fun a => a <> paho_on_connect 0) acts
  /\ _connected
       (exec acts
          (after (@__init__ string nat Z "abc123")))
     = false.
Proof.
  cbv zeta.
  assert (H : Forall
                (fun a : @action string nat Z =>
                   a <> paho_on_connect 0)
                [assign_on_connect (Some 1%nat); do_connect no_kwargs;
                 paho_on_connect 3; do_subscribe "temperature";
                 paho_on_disconnect 0; do_publish "temperature" "21.5"]).
  { repeat constructor; discriminate. }
  split; [exact H|].
  exact (proj1 (proj2 (proj2
           (@connection_flag_lifecycle string nat Z "abc123")))
           _ H).
Defined.

Lemma connect_refused_witness :
  3 <> 0
  /\ @_mqtt_connect string nat Z 3 listener
     = mkRun
         (Raise (RuntimeError "Error connecting to Adafruit IO with rc: 3"))
         listener [Debug "Client on_connect called."].
Proof.
  split; [discriminate|].
  apply (@connect_refused string nat Z 3 listener).
  discriminate.
Defined.

Lemma unexpected_disconnect_witness :
  1 <> 0
  /\ _connected
       (after (@_mqtt_disconnect string nat Z 1 online))
     = false.
Proof.
  split; [discriminate|].
  apply (@unexpected_disconnect string nat Z 1 online).
  discriminate.
Defined.

Lemma connect_when_connected_witness :
  _connected online = true
  /\ @connect string nat Z [("bind_port", 0)] online
     = mkRun (Return tt) online [].
Proof.
  split; [reflexivity|].
  apply (@connect_when_connected string nat Z); reflexivity.
Defined.

Lemma disconnect_when_disconnected_witness :
  _connected listener = false
  /\ @disconnect string nat Z listener
     = mkRun (Return tt) listener [].
Proof.
  split; [reflexivity|].
  apply (@disconnect_when_disconnected string nat Z);
    reflexivity.
Defined.

Lemma connect_parameters_witness :
  (_connected listener = false
   /\ forall k v, In (k, v) [("bind_port", 0)] ->
       k <> "port" /\ k <> "keepalive")
  /\ @connect string nat Z [("bind_port", 0)] listener
     = mkRun (Return tt) listener
         [Paho (paho_connect "io.adafruit.com" 1883 3600 [("bind_port", 0)])].
Proof.
  assert (Hk : forall k v, In (k, v) [("bind_port", 0)] ->
               k <> "port" /\ k <> "keepalive").
  { intros k v [E|[]]. injection E as <- _. split; discriminate. }
  split; [split; [reflexivity | exact Hk]|].
  apply (@connect_parameters string nat Z [("bind_port", 0)] listener);
    [reflexivity | exact Hk].
Defined.

(** C8 as the documentation words it, for every client whose flag is
    false, fails for keyword arguments with [port]: the call to the
    transport would give [port] twice, [connect] raises [TypeError] and
    the transport is not called. *)
Lemma connect_duplicate_keyword :
  _connected listener = false
  /\ @connect string nat Z [("port", 8883)] listener
     <> mkRun (Return tt) listener
          [Paho (paho_connect "io.adafruit.com" 1883 3600 [("port", 8883)])]
  /\ @connect string nat Z [("port", 8883)] listener
     = mkRun (Raise (TypeError "port")) listener [].
Proof.
  split; [reflexivity|]. split; [discriminate | reflexivity].
Defined.

(** ** The further properties at work *)

Lemma dispatched_feed_id_witness :
  let m : message string :=
    mkMessage "api/feeds/temperature/streams/send.json" "21.5" in
  (on_message listener = Some 7%nat
   /\ PyStr.startswith (topic m) "api/feeds/" = true
   /\ 31 <= PyStr.len (topic m))
  /\ effects (@_mqtt_message string nat Z m listener)
     = [Debug "Client on_message called.";
        User (call_on_message 7%nat (PyStr.slice (topic m) 10 (-21))
                (msg_payload m))].
Proof.
  cbv zeta. split; [repeat split; discriminate|].
  apply (@dispatched_feed_id string nat Z
           (mkMessage "api/feeds/temperature/streams/send.json" "21.5")
           listener 7%nat);
    [reflexivity | reflexivity | discriminate].
Defined.

Lemma outbound_topic_received_witness :
  on_message listener = Some 7%nat
  /\ effects
       (@_mqtt_message string nat Z
          (mkMessage ("api/feeds/" ++ "temperature" ++ "/streams/send.json")
             "21.5")
          listener)
     = Debug "Client on_message called."
       :: (if 3 <=? PyStr.len "temperature"
           then [User (call_on_message 7%nat
                         (PyStr.slice "temperature" 0 (-3)) "21.5")]
           else []).
Proof.
  split; [reflexivity|].
  apply (@outbound_topic_received string nat Z
           "temperature" "21.5" 7%nat listener).
  reflexivity.
Defined.

Lemma flag_true_after_connect_witness :
  let later : list (@action string nat Z) :=
    [do_subscribe "temperature"; paho_on_connect 5;
     do_publish "temperature" "21.5"; do_disconnect] in
  Forall (fun a => forall rc, a <> paho_on_disconnect rc) later
  /\ _connected (exec ([do_connect no_kwargs] ++ paho_on_connect 0 :: later)
                   listener)
     = true.
Proof.
  cbv zeta.
  assert (H : Forall
                (fun a : @action string nat Z =>
                   forall rc, a <> paho_on_disconnect rc)
                [do_subscribe "temperature"; paho_on_connect 5;
                 do_publish "temperature" "21.5"; do_disconnect]).
  { repeat constructor; intros rc; discriminate. }
  split; [exact H|].
  exact (@flag_true_after_connect string nat Z
           [do_connect no_kwargs] _ listener H).
Defined.

Lemma flag_false_after_disconnect_witness :
  let later : list (@action string nat Z) :=
    [do_connect no_kwargs; paho_on_connect 4; do_is_connected] in
  Forall (fun a => a <> paho_on_connect 0) later
  /\ _connected (exec ([] ++ paho_on_disconnect 1 :: later) online) = false.
Proof.
  cbv zeta.
  assert (H : Forall
                (fun a : @action string nat Z =>
                   a <> paho_on_connect 0)
                [do_connect no_kwargs; paho_on_connect 4; do_is_connected]).
  { repeat constructor; discriminate. }
  split; [exact H|].
  exact (@flag_false_after_disconnect string nat Z
           [] _ 1 online H).
Defined.

Lemma slots_kept_witness :
  let acts : list (@action string nat Z) :=
    [paho_on_disconnect 2; do_connect no_kwargs; paho_on_connect 0;
     paho_on_message (mkMessage "api/feeds/t/streams/receive.json" "1")] in
  forallb (fun a => negb (is_assign a)) acts = true
  /\ on_message (exec acts online) = on_message online.
Proof.
  cbv zeta. split; [reflexivity|].
  apply (@slots_kept string nat Z). reflexivity.
Defined.

Lemma no_handler_until_assigned_witness :
  let acts : list (@action string nat Z) :=
    [do_connect no_kwargs; paho_on_connect 0; do_subscribe "t";
     paho_on_message (mkMessage "api/feeds/t/streams/receive.json" "1");
     paho_on_disconnect 0] in
  forallb (fun a => negb (is_assign a)) acts = true
  /\ existsb is_user
       (trace acts
          (after (@__init__ string nat Z "abc123")))
     = false.
Proof.
  cbv zeta. split; [reflexivity|].
  apply (@no_handler_until_assigned string nat Z).
  reflexivity.
Defined.

Lemma methods_leave_client_witness :
  @is_method string nat Z (do_connect [("keepalive", 60)]) = true
  /\ after (@perform string nat Z (do_connect [("keepalive", 60)]) listener)
     = listener.
Proof.
  split; [reflexivity|].
  apply (@methods_leave_client string nat Z
           (do_connect [("keepalive", 60)]) listener).
  reflexivity.
Defined.

Lemma callbacks_no_transport_witness :
  @is_callback string nat Z (paho_on_connect 0) = true
  /\ existsb is_paho
       (effects
          (@perform string nat Z (paho_on_connect 0) online))
     = false.
Proof.
  split; [reflexivity|].
  apply (@callbacks_no_transport string nat Z
           (paho_on_connect 0) online).
  reflexivity.
Defined.

Lemma connect_twice_witness :
  (_connected listener = false
   /\ (forall k v, In (k, v) no_kwargs -> k <> "port" /\ k <> "keepalive")
   /\ (forall k v, In (k, v) [("bind_port", 0)] ->
       k <> "port" /\ k <> "keepalive"))
  /\ @bind string nat Z unit unit
       (connect no_kwargs) (fun _ => connect [("bind_port", 0)]) listener
     = mkRun (Return tt) listener
         [Paho (paho_connect SERVICE_HOST SERVICE_PORT KEEP_ALIVE_SEC no_kwargs);
          Paho (paho_connect SERVICE_HOST SERVICE_PORT KEEP_ALIVE_SEC
                  [("bind_port", 0)])].
Proof.
  assert (Hk : forall k v, In (k, v) no_kwargs ->
               k <> "port" /\ k <> "keepalive").
  { intros k v []. }
  assert (Hk' : forall k v, In (k, v) [("bind_port", 0)] ->
                k <> "port" /\ k <> "keepalive").
  { intros k v [E|[]]. injection E as <- _. split; discriminate. }
  split; [split; [reflexivity | split; [exact Hk | exact Hk']]|].
  apply (@connect_twice string nat Z no_kwargs [("bind_port", 0)] listener);
    [reflexivity | exact Hk | exact Hk'].
Defined.

Lemma disconnect_when_connected_witness :
  _connected online = true
  /\ @disconnect string nat Z online
     = mkRun (Return tt) online [Paho paho_disconnect].
Proof.
  split; [reflexivity|].
  apply (@disconnect_when_connected string nat Z online).
  reflexivity.
Defined.
